(** * Portfolio API: a shallow embedding of [main.py] and [schemas.py]

    The program is a FastAPI application with five routes.  Its handlers
    are embedded as computations in a small state-and-exception monad;
    the [database] module they import (which may be missing) and the
    pydantic validators they call are taken as parameters. *)

From Stdlib Require Import String Ascii NArith ZArith List Lia.
From stdpp Require Import base option list gmap fin_maps.

Set Warnings "-register-all".
Set Default Proof Using "Type".

(** ** Python text

    A Python [str] is a sequence of Unicode code points: [len] counts code
    points and [s[:n]] keeps the first [n] of them.  Literals are written
    as in the source and decoded from the UTF-8 bytes of this file. *)

Definition pystr := list N.

Fixpoint utf8_go (bs : list N) (need : nat) (acc : N) : pystr :=
  match bs with
  | [] => []
  | b :: bs' =>
      match need with
      | S n =>
          let acc' := (acc * 64 + N.land b 63)%N in
          match n with
          | O => acc' :: utf8_go bs' 0 0%N
          | S _ => utf8_go bs' n acc'
          end
      | O =>
          if (b <? 128)%N then b :: utf8_go bs' 0 0%N
          else if (b <? 224)%N then utf8_go bs' 1 (N.land b 31)
          else if (b <? 240)%N then utf8_go bs' 2 (N.land b 15)
          else utf8_go bs' 3 (N.land b 7)
      end
  end.

Definition py (s : string) : pystr :=
  utf8_go (map N_of_ascii (list_ascii_of_string s)) 0 0%N.

Arguments py s%_string.

(** ** Dynamically typed values

    JSON request bodies, Mongo documents and the dicts the handlers return
    all hold values whose type is only known at run time. *)

Inductive value :=
| VNone
| VBool (b : bool)
| VNum (z : Z)
| VStr (s : pystr)
| VList (l : list value)
| VDict (d : gmap pystr value).

(** [d.get(k, default)] *)
Definition dict_get (d : gmap pystr value) (k : pystr) (dflt : value) : value :=
  default dflt (d !! k).

(** Exceptions (subclasses of [Exception]): the class that an [except]
    clause tests, and the text [str(e)] yields. *)
Inductive exn_class := ImportError | ValidationError | TypeError | OtherError.

Record exn := Exn { exn_type : exn_class; str : pystr }.

(** [list(v)]: a list is copied, a str yields its characters, a dict its
    keys (here in the map's key order; Python yields insertion order, which
    a [gmap] does not record), anything else is not iterable. *)
Definition py_list (v : value) : exn + list value :=
  match v with
  | VList l => inr l
  | VStr s => inr ((λ c, VStr [c]) <$> s)
  | VDict d => inr ((λ kv, VStr kv.1) <$> map_to_list d)
  | _ => inl (Exn TypeError (py "object is not iterable"))
  end.

(** Truthiness of [os.getenv(name)]: [None] and the empty string are falsy. *)
Definition truthy (o : option pystr) : bool :=
  match o with
  | Some (_ :: _) => true
  | _ => false
  end.

(** ** pydantic

    The validators of the pydantic library (and of email-validator, behind
    [EmailStr]) are not part of the repository.  What the handlers rely on:
    a [str] field accepts a str unchanged; other inputs are accepted or not
    depending on the library version.  [EmailStr] returns the normalised
    address of a syntactically valid one. *)

Class Pydantic := {
  validate_str : value → option pystr;
  validate_email : pystr → option pystr;
  error_text : list pystr → pystr;
  validate_str_VStr : ∀ s, validate_str (VStr s) = Some s
}.

(** ** Models of [main.py] and [schemas.py] *)

Module ProjectOut.
Record t := mk {
  title : pystr;
  summary : pystr;
  tech : list pystr;
  thumbnail : option pystr;
  live_url : option pystr;
  github_url : option pystr;
  case_study_url : option pystr
}.
End ProjectOut.

Module ContactIn.
Record t := mk { name : pystr; email : pystr; message : pystr }.
End ContactIn.

Module Contact.
Record t := mk { name : pystr; email : pystr; message : pystr }.
End Contact.

(** ** The handler monad

    A handler runs against a frame: the local dict it mutates in place
    ([response] in [test_database]) and the log of the calls it has made
    to the database module.  Raising keeps the frame, as in Python. *)

Inductive event :=
| GetDocuments (collection : pystr) (limit : nat)
| CreateDocument (collection : pystr) (doc : Contact.t)
| ListCollectionNames.

Record frame := Frame { response : gmap pystr value; calls : list event }.

Definition M (A : Type) : Type := frame → (exn + A) * frame.

Definition ret {A} (a : A) : M A := λ f, (inr a, f).

Definition bind {A B} (m : M A) (k : A → M B) : M B :=
  λ f, match m f with
       | (inr a, f') => k a f'
       | (inl e, f') => (inl e, f')
       end.

Definition raise {A} (e : exn) : M A := λ f, (inl e, f).

Definition lift {A} (r : exn + A) : M A := λ f, (r, f).

(** [try: body  except Exception as e: handler e] *)
Definition try_except {A} (body : M A) (handler : exn → M A) : M A :=
  λ f, match body f with
       | (inl e, f') => handler e f'
       | r => r
       end.

(** [response[k] = v] *)
Definition assign (k : pystr) (v : value) : M unit :=
  λ f, (inr tt, Frame (<[k := v]> (response f)) (calls f)).

Definition set_response (d : gmap pystr value) : M unit :=
  λ f, (inr tt, Frame d (calls f)).

Definition get_response : M (gmap pystr value) := λ f, (inr (response f), f).

Definition log (ev : event) : M unit :=
  λ f, (inr tt, Frame (response f) (calls f ++ [ev])).

(** stdpp's notation: [x ← m; k] and [m;; k]. *)
#[global] Instance M_ret : MRet M := @ret.
#[global] Instance M_bind : MBind M := λ A B k m, bind m k.

(** ** The storage collaborator

    [database.py] is imported inside each handler and is not among the
    sources.  It is taken as it is used: a module-level handle [db] (or
    [None]), [get_documents(collection, limit=...)] and
    [create_document(collection, model)], each returning or raising. *)

Record db_handle := {
  db_name : option value;               (* [db.name] when [hasattr(db, 'name')] *)
  list_collection_names : exn + list pystr
}.

Record database_module := {
  db : option db_handle;
  get_documents : pystr → nat → exn + list (gmap pystr value);
  create_document : pystr → Contact.t → exn + pystr
}.

(** The outcome of [from database import ...]. *)
Inductive storage :=
| Unavailable (e : exn)
| Available (m : database_module).

Definition absent : storage :=
  Unavailable (Exn ImportError (py "No module named 'database'")).

Definition import_database (st : storage) : M database_module :=
  match st with
  | Unavailable e => raise e
  | Available m => ret m
  end.

Definition call_get_documents (m : database_module) (c : pystr) (limit : nat)
  : M (list (gmap pystr value)) :=
  log (GetDocuments c limit) ;; lift (get_documents m c limit).

Definition call_create_document (m : database_module) (c : pystr) (doc : Contact.t)
  : M pystr :=
  log (CreateDocument c doc) ;; lift (create_document m c doc).

Definition call_list_collection_names (h : db_handle) : M (list pystr) :=
  log ListCollectionNames ;; lift (list_collection_names h).

(** The collaborator returns no more documents than it was asked for
    ("fetch up to N documents from a named collection"). *)
Definition honours_limit (m : database_module) : Prop :=
  ∀ c n docs, get_documents m c n = inr docs → length docs ≤ n.

Section Handlers.
Context `{Pydantic}.

Definition validation_error (fields : list pystr) : exn :=
  Exn ValidationError (error_text fields).

(** The name of a field whose validation failed. *)
Definition failed {A} (field : string) (o : option A) : list pystr :=
  match o with
  | Some _ => []
  | None => [py field]
  end.
Global Arguments failed {A} field%_string o.

Definition check (field : string) (ok : bool) : list pystr :=
  if ok then [] else [py field].
Global Arguments check field%_string ok.

(** [Optional[str]] *)
Definition validate_optional_str (v : value) : option (option pystr) :=
  match v with
  | VNone => Some None
  | _ => Some <$> validate_str v
  end.

(** [List[str]], given a Python list *)
Definition validate_list_str (l : list value) : option (list pystr) :=
  mapM validate_str l.

(** *** [main.py]: [ProjectOut(title=..., summary=..., tech=..., ...)] *)
Definition ProjectOut_new
    (title summary : value) (tech : list value)
    (thumbnail live_url github_url case_study_url : value)
  : exn + ProjectOut.t :=
  match validate_str title, validate_str summary, validate_list_str tech,
        validate_optional_str thumbnail, validate_optional_str live_url,
        validate_optional_str github_url, validate_optional_str case_study_url
  with
  | Some t, Some s, Some te, Some th, Some lu, Some gu, Some cu =>
      inr (ProjectOut.mk t s te th lu gu cu)
  | t, s, te, th, lu, gu, cu =>
      inl (validation_error
             (failed "title" t ++ failed "summary" s ++ failed "tech" te ++
              failed "thumbnail" th ++ failed "live_url" lu ++
              failed "github_url" gu ++ failed "case_study_url" cu))
  end.

(** *** [schemas.py]: [Contact(name=..., email=..., message=...)]
    [name] has [min_length=2], [email] is an [EmailStr], [message] has
    [min_length=10] and [max_length=2000]. *)
Definition Contact_errors (name email message : pystr) : list pystr :=
  (check "name" (2 <=? length name) ++
   failed "email" (validate_email email) ++
   check "message" ((10 <=? length message) && (length message <=? 2000))).

Definition Contact_new (name email message : pystr) : exn + Contact.t :=
  match Contact_errors name email message, validate_email email with
  | [], Some email' => inr (Contact.mk name email' message)
  | fields, _ => inl (validation_error fields)
  end.

(** *** [schemas.py]: [Project], validated from a document.  [title] and
    [summary] are required; [tech] defaults to the empty list and the
    four optional fields to [None]. *)
Definition required_str (d : gmap pystr value) (k : string) : option pystr :=
  d !! py k ≫= validate_str.
Global Arguments required_str d k%_string.

Definition field_optional_str (d : gmap pystr value) (k : string)
  : option (option pystr) :=
  match d !! py k with
  | None => Some None
  | Some v => validate_optional_str v
  end.
Global Arguments field_optional_str d k%_string.

Definition field_list_str (d : gmap pystr value) (k : string)
  : option (list pystr) :=
  match d !! py k with
  | None => Some []
  | Some (VList l) => validate_list_str l
  | Some _ => None
  end.
Global Arguments field_list_str d k%_string.

Definition Project_new (d : gmap pystr value) : exn + ProjectOut.t :=
  match required_str d "title", required_str d "summary",
        field_list_str d "tech",
        field_optional_str d "thumbnail", field_optional_str d "live_url",
        field_optional_str d "github_url", field_optional_str d "case_study_url"
  with
  | Some t, Some s, Some te, Some th, Some lu, Some gu, Some cu =>
      inr (ProjectOut.mk t s te th lu gu cu)
  | t, s, te, th, lu, gu, cu =>
      inl (validation_error
             (failed "title" t ++ failed "summary" s ++ failed "tech" te ++
              failed "thumbnail" th ++ failed "live_url" lu ++
              failed "github_url" gu ++ failed "case_study_url" cu))
  end.

(** *** [GET /] and [GET /api/hello] *)
Definition read_root : M (gmap pystr value) :=
  mret {[ py "message" := VStr (py "Portfolio API running") ]}.

Definition hello : M (gmap pystr value) :=
  mret {[ py "message" := VStr (py "Hello from the backend API!") ]}.

(** *** [GET /test] *)
Definition getenv (env : gmap pystr pystr) (k : string) : option pystr :=
  env !! py k.
Global Arguments getenv env k%_string.

Definition test_database (st : storage) (env : gmap pystr pystr)
  : M (gmap pystr value) :=
  set_response
    {[ py "backend" := VStr (py "✅ Running");
       py "database" := VStr (py "❌ Not Available");
       py "database_url" := VNone;
       py "database_name" := VNone;
       py "connection_status" := VStr (py "Not Connected");
       py "collections" := VList [] ]};;
  try_except
    (m ← import_database st;
     match db m with
     | Some h =>
         assign (py "database") (VStr (py "✅ Available"));;
         assign (py "database_url") (VStr (py "✅ Configured"));;
         assign (py "database_name")
           (match db_name h with
            | Some n => n
            | None => VStr (py "✅ Connected")
            end);;
         assign (py "connection_status") (VStr (py "Connected"));;
         try_except
           (collections ← call_list_collection_names h;
            assign (py "collections") (VList (VStr <$> take 10 collections));;
            assign (py "database") (VStr (py "✅ Connected & Working")))
           (λ e, assign (py "database")
                   (VStr (py "⚠️  Connected but Error: " ++ take 50 (str e))))
     | None =>
         assign (py "database") (VStr (py "⚠️  Available but not initialized"))
     end)
    (λ e, match exn_type e with
          | ImportError =>
              assign (py "database")
                (VStr (py "❌ Database module not found (run enable-database first)"))
          | _ =>
              assign (py "database")
                (VStr (py "❌ Error: " ++ take 50 (str e)))
          end);;
  assign (py "database_url")
    (VStr (if truthy (getenv env "DATABASE_URL")
           then py "✅ Set" else py "❌ Not Set"));;
  assign (py "database_name")
    (VStr (if truthy (getenv env "DATABASE_NAME")
           then py "✅ Set" else py "❌ Not Set"));;
  get_response.

(** *** [GET /api/projects] *)

(** One iteration of the loop body: the keyword arguments are evaluated
    in order, then the model is built. *)
Definition project_of_doc (d : gmap pystr value) : M ProjectOut.t :=
  let title := dict_get d (py "title") (VStr (py "Untitled")) in
  let summary := dict_get d (py "summary") (VStr (py "")) in
  tech ← lift (py_list (dict_get d (py "tech") (VList [])));
  lift (ProjectOut_new title summary tech
          (dict_get d (py "thumbnail") VNone)
          (dict_get d (py "live_url") VNone)
          (dict_get d (py "github_url") VNone)
          (dict_get d (py "case_study_url") VNone)).

(** [for d in docs: out.append(ProjectOut(...))] *)
Fixpoint for_docs (docs : list (gmap pystr value)) (out : list ProjectOut.t)
  : M (list ProjectOut.t) :=
  match docs with
  | [] => mret out
  | d :: docs' => p ← project_of_doc d; for_docs docs' (out ++ [p])
  end.

(** The curated examples returned after the [try] statement. *)
Definition curated_examples : M (list ProjectOut.t) :=
  p1 ← lift (ProjectOut_new
               (VStr (py "RemoveQ — Media Optimization Layer"))
               (VStr (py "Reduced bandwidth by 60% and improved Core Web Vitals across stores."))
               [VStr (py "AWS"); VStr (py "CloudFront"); VStr (py "Lambda@Edge"); VStr (py "Shopify")]
               (VStr (py "/projects/removeq.jpg"))
               (VStr (py "https://example.com/removeq"))
               VNone
               VNone);
  p2 ← lift (ProjectOut_new
               (VStr (py "Shopify CI/CD — Zero-Downtime Deploys"))
               (VStr (py "Automated theme deployments with rollbacks; eliminated manual errors."))
               [VStr (py "GitHub Actions"); VStr (py "Shopify CLI"); VStr (py "Docker")]
               (VStr (py "/projects/shopify-cicd.jpg"))
               VNone
               (VStr (py "https://github.com/naveenrao/shopify-cicd"))
               VNone);
  p3 ← lift (ProjectOut_new
               (VStr (py "Next.js SaaS Starter"))
               (VStr (py "High-performance SaaS foundation with auth, billing, and analytics."))
               [VStr (py "Next.js"); VStr (py "Supabase"); VStr (py "Stripe")]
               (VStr (py "/projects/saas-starter.jpg"))
               (VStr (py "https://example.com/saas-starter"))
               (VStr (py "https://github.com/naveenrao/saas-starter"))
               VNone);
  mret [p1; p2; p3].

(** The [try] block either returns ([Some out]) or falls through
    ([None]): when [out] is empty, and when anything raises. *)
Definition get_projects (st : storage) : M (list ProjectOut.t) :=
  returned ← try_except
    (m ← import_database st;
     docs ← call_get_documents m (py "project") 12;
     out ← for_docs docs [];
     mret (match out with
           | [] => None
           | _ :: _ => Some out
           end))
    (λ _, mret None);
  match returned with
  | Some out => mret out
  | None => curated_examples
  end.

(** *** [POST /api/contact] *)
Definition post_contact (st : storage) (payload : ContactIn.t)
  : M (gmap pystr value) :=
  try_except
    (m ← import_database st;
     contact ← lift (Contact_new (ContactIn.name payload)
                       (ContactIn.email payload) (ContactIn.message payload));
     _id ← call_create_document m (py "contact") contact;
     mret {[ py "success" := VBool true; py "id" := VStr _id ]})
    (λ _, mret {[ py "success" := VBool true;
                  py "id" := VNone;
                  py "note" := VStr (py "Stored in-memory fallback not enabled. DB may be disabled in this environment.") ]}).

(** ** The FastAPI layer

    A handler that returns answers 200 with its value as JSON; one that
    raises answers 500.  A request body is validated against the
    handler's parameter model first, and a body that fails is answered
    422 with the failing fields, without calling the handler. *)

Record http_response := { status : nat; body : value }.

(** Field [k] of a JSON object body. *)
Definition body_field (r : http_response) (k : string) : option value :=
  match body r with
  | VDict b => b !! py k
  | _ => None
  end.
Global Arguments body_field r k%_string.

Definition new_frame : frame := Frame ∅ [].

Definition respond {A} (to_json : A → value) (handler : M A)
  : http_response * list event :=
  match handler new_frame with
  | (inr a, f) => ({| status := 200; body := to_json a |}, calls f)
  | (inl _, f) =>
      ({| status := 500; body := VStr (py "Internal Server Error") |}, calls f)
  end.

Definition option_json (o : option pystr) : value :=
  match o with
  | Some s => VStr s
  | None => VNone
  end.

(** Serialisation through [response_model=List[ProjectOut]]. *)
Definition ProjectOut_json (p : ProjectOut.t) : gmap pystr value :=
  {[ py "title" := VStr (ProjectOut.title p);
     py "summary" := VStr (ProjectOut.summary p);
     py "tech" := VList (VStr <$> ProjectOut.tech p);
     py "thumbnail" := option_json (ProjectOut.thumbnail p);
     py "live_url" := option_json (ProjectOut.live_url p);
     py "github_url" := option_json (ProjectOut.github_url p);
     py "case_study_url" := option_json (ProjectOut.case_study_url p) ]}.

Definition projects_json (l : list ProjectOut.t) : value :=
  VList ((λ p, VDict (ProjectOut_json p)) <$> l).

(** [payload: ContactIn]: the body must be an object whose [name],
    [email] and [message] are present and pass as [str]. *)
Definition ContactIn_parse (raw : value) : list pystr + ContactIn.t :=
  match raw with
  | VDict d =>
      match required_str d "name", required_str d "email",
            required_str d "message" with
      | Some n, Some e, Some m => inr (ContactIn.mk n e m)
      | n, e, m => inl (failed "name" n ++ failed "email" e ++ failed "message" m)
      end
  | _ => inl [py "body"]
  end.

Definition unprocessable (fields : list pystr) : http_response :=
  {| status := 422; body := VDict {[ py "detail" := VList (VStr <$> fields) ]} |}.

Definition GET_root : http_response * list event := respond VDict read_root.

Definition GET_api_hello : http_response * list event := respond VDict hello.

Definition GET_test (st : storage) (env : gmap pystr pystr)
  : http_response * list event :=
  respond VDict (test_database st env).

Definition GET_api_projects (st : storage) : http_response * list event :=
  respond projects_json (get_projects st).

Definition POST_api_contact (st : storage) (raw : value)
  : http_response * list event :=
  match ContactIn_parse raw with
  | inl fields => (unprocessable fields, [])
  | inr payload => respond VDict (post_contact st payload)
  end.

Definition client_error (r : http_response) : bool :=
  (400 <=? status r) && (status r <? 500).

Definition persistence_attempted (evs : list event) : bool :=
  existsb (λ ev, match ev with
                 | CreateDocument _ _ => true
                 | _ => false
                 end) evs.

End Handlers.

(** ** Concrete collaborators, for running the model *)

Fixpoint split_at (c : N) (s : pystr) : option (pystr * pystr) :=
  match s with
  | [] => None
  | x :: s' =>
      if (x =? c)%N then Some ([], s')
      else match split_at c s' with
           | Some (a, b) => Some (x :: a, b)
           | None => None
           end
  end.

(** A plain address check: a non-empty local part, one [@], and a domain
    with a dot that is neither its first nor its last character. *)
Definition simple_email (s : pystr) : option pystr :=
  match split_at 64 s with
  | Some (_ :: _, domain) =>
      match existsb (N.eqb 64) domain, split_at 46 domain with
      | false, Some (_ :: _, _ :: _) => Some s
      | _, _ => None
      end
  | _ => None
  end.

(** pydantic 2 in its default mode: a [str] field accepts a str only. *)
Definition pydantic_v2 : Pydantic :=
  {| validate_str v := match v with
                       | VStr s => Some s
                       | _ => None
                       end;
     validate_email := simple_email;
     error_text fields := concat fields;
     validate_str_VStr := λ s, eq_refl |}.

(** Modelled from the spec: the storage collaborator of section 6, absent
    from the sources: "list collection names", "fetch up to N documents from
    a named collection", "insert one document into a named collection
    returning a generated identifier".  [colls] holds the stored documents
    in storage order and [new_id] is the identifier the next insert gets. *)
Definition working_database (colls : gmap pystr (list (gmap pystr value)))
    (new_id : pystr) : database_module :=
  {| db := Some {| db_name := Some (VStr (py "portfolio"));
                   list_collection_names := inr (map_to_list colls).*1 |};
     get_documents c n := inr (take n (default [] (colls !! c)));
     create_document _ _ := inr new_id |}.

(** A database whose every operation raises [e]. *)
Definition failing_database (e : exn) : database_module :=
  {| db := Some {| db_name := None; list_collection_names := inl e |};
     get_documents _ _ := inl e;
     create_document _ _ := inl e |}.

(** A module that imports but whose [db] is [None]. *)
Definition uninitialised_database : database_module :=
  {| db := None;
     get_documents _ _ := inl (Exn OtherError (py "Database not available"));
     create_document _ _ := inl (Exn OtherError (py "Database not available")) |}.

(** A handle whose enumeration raises. *)
Definition erroring_handle : db_handle :=
  {| db_name := None;
     list_collection_names := inl (Exn OtherError (py "not authorized")) |}.

(** Two stored documents: one with some fields, one with none. *)
Definition two_documents : list (gmap pystr value) :=
  [ {[ py "title" := VStr (py "Site");
       py "tech" := VList [VStr (py "Rocq")];
       py "live_url" := VNone ]};
    ∅ ].

(** The request bodies of the two scenarios of the specification. *)
Definition contact_body (name email message : pystr) : gmap pystr value :=
  {[ py "name" := VStr name; py "email" := VStr email; py "message" := VStr message ]}.

Definition good_body : gmap pystr value :=
  contact_body (py "Al") (py "a@b.com") (py "Hello there, this is long enough.").

Definition bad_body : gmap pystr value :=
  contact_body (py "A") (py "bad") (py "short").

(** The body [post_contact] answers with when anything in its [try] raised. *)
Definition soft_success : gmap pystr value :=
  {[ py "success" := VBool true;
     py "id" := VNone;
     py "note" := VStr (py "Stored in-memory fallback not enabled. DB may be disabled in this environment.") ]}.

(** ** Vocabulary of the statements *)

(** A fetched document is valid when the fields it has carry the types
    of the Project shape: [title] and [summary] strings, [tech] a list of
    strings, the four optional fields strings or null. *)
Definition is_str (v : value) : bool :=
  match v with
  | VStr _ => true
  | _ => false
  end.

Definition is_optional_str (v : value) : bool :=
  match v with
  | VNone | VStr _ => true
  | _ => false
  end.

Definition is_list_str (v : value) : bool :=
  match v with
  | VList l => forallb is_str l
  | _ => false
  end.

Definition field_ok (ok : value → bool) (d : gmap pystr value) (k : string) : bool :=
  match d !! py k with
  | None => true
  | Some v => ok v
  end.

Arguments field_ok ok d k%_string.

Definition valid_document (d : gmap pystr value) : bool :=
  field_ok is_str d "title" && field_ok is_str d "summary" &&
  field_ok is_list_str d "tech" &&
  field_ok is_optional_str d "thumbnail" && field_ok is_optional_str d "live_url" &&
  field_ok is_optional_str d "github_url" && field_ok is_optional_str d "case_study_url".

(** The mapping of section 3 in the words of the specification: [title]
    defaults to "Untitled", [summary] to the empty string, [tech] to the
    empty list, the optional fields to absent. *)
Definition str_or (dflt : pystr) (o : option value) : pystr :=
  match o with
  | Some (VStr s) => s
  | _ => dflt
  end.

Definition the_str (v : value) : option pystr :=
  match v with
  | VStr s => Some s
  | _ => None
  end.

Definition strs_or_empty (o : option value) : list pystr :=
  match o with
  | Some (VList l) => omap the_str l
  | _ => []
  end.

Definition str_or_absent (o : option value) : option pystr := o ≫= the_str.

Definition default_substitution (d : gmap pystr value) : ProjectOut.t :=
  ProjectOut.mk
    (str_or (py "Untitled") (d !! py "title"))
    (str_or (py "") (d !! py "summary"))
    (strs_or_empty (d !! py "tech"))
    (str_or_absent (d !! py "thumbnail"))
    (str_or_absent (d !! py "live_url"))
    (str_or_absent (d !! py "github_url"))
    (str_or_absent (d !! py "case_study_url")).

(** The fixed fallback sequence, as the records the three constructor
    calls at the end of [get_projects] build. *)
Definition fallback : list ProjectOut.t :=
  [ ProjectOut.mk
      (py "RemoveQ — Media Optimization Layer")
      (py "Reduced bandwidth by 60% and improved Core Web Vitals across stores.")
      [py "AWS"; py "CloudFront"; py "Lambda@Edge"; py "Shopify"]
      (Some (py "/projects/removeq.jpg"))
      (Some (py "https://example.com/removeq"))
      None
      None;
    ProjectOut.mk
      (py "Shopify CI/CD — Zero-Downtime Deploys")
      (py "Automated theme deployments with rollbacks; eliminated manual errors.")
      [py "GitHub Actions"; py "Shopify CLI"; py "Docker"]
      (Some (py "/projects/shopify-cicd.jpg"))
      None
      (Some (py "https://github.com/naveenrao/shopify-cicd"))
      None;
    ProjectOut.mk
      (py "Next.js SaaS Starter")
      (py "High-performance SaaS foundation with auth, billing, and analytics.")
      [py "Next.js"; py "Supabase"; py "Stripe"]
      (Some (py "/projects/saas-starter.jpg"))
      (Some (py "https://example.com/saas-starter"))
      (Some (py "https://github.com/naveenrao/saas-starter"))
      None ].

Section Vocabulary.
Context `{Pydantic}.

(** A valid Contact payload: name of length at least 2, a syntactically
    valid email address, message length within [10, 2000]. *)
Definition valid_contact (p : ContactIn.t) : Prop :=
  2 ≤ length (ContactIn.name p) ∧
  is_Some (validate_email (ContactIn.email p)) ∧
  10 ≤ length (ContactIn.message p) ≤ 2000.

(** The model [post_contact] builds from its payload. *)
Definition Contact_of (p : ContactIn.t) : exn + Contact.t :=
  Contact_new (ContactIn.name p) (ContactIn.email p) (ContactIn.message p).

(** The body [post_contact] answers with after a successful insert. *)
Definition stored (_id : pystr) : gmap pystr value :=
  {[ py "success" := VBool true; py "id" := VStr _id ]}.

End Vocabulary.

(** ** Vocabulary of the further properties *)

(** The handle of [test_database]'s [if db is not None] test. *)
Definition initialised (st : storage) : bool :=
  match st with
  | Available m => bool_decide (is_Some (db m))
  | Unavailable _ => false
  end.

(** The names [test_database] has to list: those the enumeration returned,
    when the handle is initialised and the enumeration does not raise. *)
Definition enumerated (st : storage) : option (list pystr) :=
  match st with
  | Available m =>
      match db m with
      | Some h =>
          match list_collection_names h with
          | inr names => Some names
          | inl _ => None
          end
      | None => None
      end
  | Unavailable _ => None
  end.

(** The text [test_database] leaves in [database], by storage state. *)
Definition status_text (st : storage) : pystr :=
  match st with
  | Unavailable e =>
      match exn_type e with
      | ImportError => py "❌ Database module not found (run enable-database first)"
      | _ => py "❌ Error: " ++ take 50 (str e)
      end
  | Available m =>
      match db m with
      | None => py "⚠️  Available but not initialized"
      | Some h =>
          match list_collection_names h with
          | inr _ => py "✅ Connected & Working"
          | inl e => py "⚠️  Connected but Error: " ++ take 50 (str e)
          end
      end
  end.

(** What [list(v)] accepts. *)
Definition is_iterable (v : value) : bool :=
  match v with
  | VList _ | VStr _ | VDict _ => true
  | _ => false
  end.

(** The keys [get_projects] reads from a document. *)
Definition project_fields : list pystr :=
  [py "title"; py "summary"; py "tech"; py "thumbnail"; py "live_url";
   py "github_url"; py "case_study_url"].

Definition same_project_fields (d1 d2 : gmap pystr value) : Prop :=
  Forall (λ k, d1 !! k = d2 !! k) project_fields.

(** A stored document whose [tech] is null, after a valid one. *)
Definition good_then_bad : list (gmap pystr value) :=
  [ {[ py "title" := VStr (py "Site") ]};
    {[ py "title" := VStr (py "Shop"); py "tech" := VNone ]} ].

(** A document whose [tech] is a string. *)
Definition tech_as_text : gmap pystr value :=
  {[ py "title" := VStr (py "Site"); py "tech" := VStr (py "Go") ]}.

(** The same document with and without the key the store adds. *)
Definition bare_document : gmap pystr value :=
  {[ py "title" := VStr (py "Site") ]}.

Definition stored_document : gmap pystr value :=
  {[ py "title" := VStr (py "Site"); py "_id" := VStr (py "65f0c0ffee") ]}.

(** A record with some fields absent. *)
Definition example_project : ProjectOut.t :=
  ProjectOut.mk (py "Site") (py "") [py "Rocq"] None
    (Some (py "https://example.com")) None None.

(** A request body without [email]. *)
Definition no_email_body : gmap pystr value :=
  {[ py "name" := VStr (py "Al");
     py "message" := VStr (py "Hello there, this is long enough.") ]}.

(** * Properties *)

(** ** [POST /api/contact] *)

Section Contact_properties.
Context `{Pydantic}.

Lemma Contact_errors_nil n e m :
  Contact_errors n e m = [] ↔
  2 ≤ length n ∧ is_Some (validate_email e) ∧ 10 ≤ length m ≤ 2000.
Proof.
  unfold Contact_errors, check, failed.
  destruct (Nat.leb_spec 2 (length n)), (validate_email e) as [e'|],
    (Nat.leb_spec 10 (length m)), (Nat.leb_spec (length m) 2000);
    simpl; split; try discriminate; try (intros (? & [? ?] & ? & ?); discriminate || lia);
    intros _; repeat split; eauto; lia.
Qed.

Lemma Contact_of_valid p :
  valid_contact p →
  ∃ e', validate_email (ContactIn.email p) = Some e' ∧
        Contact_of p = inr (Contact.mk (ContactIn.name p) e' (ContactIn.message p)).
Proof.
  intros Hv. pose proof (proj2 (Contact_errors_nil _ _ _) Hv) as Hnil.
  destruct Hv as (_ & [e' He] & _). exists e'. split; [done|].
  unfold Contact_of, Contact_new. by rewrite Hnil, He.
Qed.

Lemma Contact_of_invalid p :
  ¬ valid_contact p → ∃ err, Contact_of p = inl err.
Proof.
  intros Hv. unfold Contact_of, Contact_new.
  destruct (Contact_errors _ _ _) as [|fld flds] eqn:E.
  - destruct Hv. by apply Contact_errors_nil.
  - eauto.
Qed.

(** The handler, case by case: the fallback body is produced when the
    import fails, when the [Contact] model rejects the payload, and when
    the insert raises; only the last is reached after a call to
    [create_document]. *)
Lemma post_contact_run st p f :
  post_contact st p f =
  match st with
  | Unavailable _ => (inr soft_success, f)
  | Available m =>
      match Contact_of p with
      | inl _ => (inr soft_success, f)
      | inr c =>
          let f' := Frame (response f) (calls f ++ [CreateDocument (py "contact") c]) in
          match create_document m (py "contact") c with
          | inl _ => (inr soft_success, f')
          | inr _id => (inr (stored _id), f')
          end
      end
  end.
Proof.
  unfold post_contact, try_except, Contact_of, mbind, M_bind, bind.
  destruct st as [e|m]; simpl; [done|].
  destruct (Contact_new _ _ _) as [err|c]; simpl; [done|].
  by destruct (create_document m _ c).
Qed.

Lemma soft_success_fields :
  soft_success !! py "success" = Some (VBool true) ∧
  soft_success !! py "id" = Some VNone ∧
  ∃ note, soft_success !! py "note" = Some (VStr note) ∧ note ≠ [].
Proof. repeat split. eexists. split; [by vm_compute | done]. Qed.

Lemma ContactIn_parse_strings (d : gmap pystr value) n e m :
  d !! py "name" = Some (VStr n) →
  d !! py "email" = Some (VStr e) →
  d !! py "message" = Some (VStr m) →
  ContactIn_parse (VDict d) = inr (ContactIn.mk n e m).
Proof.
  intros Hn He Hm. unfold ContactIn_parse, required_str.
  rewrite Hn, He, Hm. simpl. by rewrite !validate_str_VStr.
Qed.

(** C1 (as amended). A payload that violates the Contact constraints is
    not rejected at the boundary: [ContactIn] carries no constraint, so the
    handler runs, its [Contact] model raises inside the [try], and the
    answer is 200 with the fallback body.  No persistence attempt is made:
    [create_document] is not called. *)
Theorem contact_invalid_not_persisted st raw p :
  ContactIn_parse raw = inr p →
  ¬ valid_contact p →
  POST_api_contact st raw = ({| status := 200; body := VDict soft_success |}, []) ∧
  persistence_attempted (POST_api_contact st raw).2 = false.
Proof.
  intros Hparse Hinv.
  assert (POST_api_contact st raw
          = ({| status := 200; body := VDict soft_success |}, [])) as ->; [|done].
  unfold POST_api_contact, respond. rewrite Hparse, post_contact_run.
  destruct st as [e|m]; [done|].
  by destruct (Contact_of_invalid p Hinv) as [err ->].
Qed.

(** C2. For a valid payload, when the database module cannot be imported
    or the insert raises, the answer is 200 and its body has
    [success = true], [id = null] and a non-empty [note]. *)
Theorem contact_storage_failure st raw p :
  ContactIn_parse raw = inr p →
  valid_contact p →
  (∃ e, st = Unavailable e) ∨
  (∃ m c err, st = Available m ∧ Contact_of p = inr c ∧
              create_document m (py "contact") c = inl err) →
  ∃ b, (POST_api_contact st raw).1 = {| status := 200; body := VDict b |} ∧
       b !! py "success" = Some (VBool true) ∧
       b !! py "id" = Some VNone ∧
       ∃ note, b !! py "note" = Some (VStr note) ∧ note ≠ [].
Proof.
  intros Hparse _ Hfail. exists soft_success. split; [|apply soft_success_fields].
  unfold POST_api_contact, respond. rewrite Hparse, post_contact_run.
  destruct Hfail as [[e ->] | (m & c & err & -> & -> & Hc)]; [done|].
  simpl. by rewrite Hc.
Qed.

(** C3. For a valid payload, when [create_document] returns an
    identifier, the answer is 200 with [success = true] and [id] that
    identifier; the collaborator was called once, with the validated
    model. *)
Theorem contact_stored m raw p c _id :
  ContactIn_parse raw = inr p →
  valid_contact p →
  Contact_of p = inr c →
  create_document m (py "contact") c = inr _id →
  POST_api_contact (Available m) raw =
    ({| status := 200; body := VDict (stored _id) |}, [CreateDocument (py "contact") c]) ∧
  stored _id !! py "success" = Some (VBool true) ∧
  stored _id !! py "id" = Some (VStr _id) ∧
  VStr _id ≠ VNone.
Proof.
  intros Hparse _ Hc Hid. split; [|by repeat split].
  unfold POST_api_contact, respond. rewrite Hparse, post_contact_run, Hc.
  simpl. by rewrite Hid.
Qed.

(** C9. Whatever the payload and the storage state, the handler returns
    a body with [success = true]; so every request body whose [name],
    [email] and [message] are strings is answered 200 with
    [success = true], the Contact constraints notwithstanding. *)
Theorem contact_always_success st :
  (∀ p f, ∃ b f', post_contact st p f = (inr b, f') ∧
                  b !! py "success" = Some (VBool true)) ∧
  (∀ (d : gmap pystr value) n e m,
     d !! py "name" = Some (VStr n) →
     d !! py "email" = Some (VStr e) →
     d !! py "message" = Some (VStr m) →
     ∃ b, (POST_api_contact st (VDict d)).1 = {| status := 200; body := VDict b |} ∧
          b !! py "success" = Some (VBool true)).
Proof.
  assert (∀ p f, ∃ b f', post_contact st p f = (inr b, f') ∧
                         b !! py "success" = Some (VBool true)) as Hh.
  { intros p f. rewrite post_contact_run.
    destruct st as [e|m]; [by eauto|].
    destruct (Contact_of p) as [err|c]; [by eauto|]. simpl.
    destruct (create_document m _ c); by eauto. }
  split; [done|]. intros d n e m Hn He Hm.
  unfold POST_api_contact, respond.
  rewrite (ContactIn_parse_strings d n e m Hn He Hm).
  destruct (Hh (ContactIn.mk n e m) new_frame) as (b & f' & -> & Hb). eauto.
Qed.

End Contact_properties.

(** ** [GET /test] *)

Section Test_properties.

Ltac run_test :=
  unfold GET_test, respond, test_database, try_except, mbind, M_bind, bind; simpl.

Ltac cases_of_storage st :=
  let c := fresh "c" in
  let s := fresh "s" in
  let m := fresh "m" in
  let h := fresh "h" in
  let e := fresh "e" in
  let names := fresh "names" in
  destruct st as [[c s]|m]; [destruct c; run_test ..|];
  [..|run_test; destruct (db m) as [h|]; simpl;
      [destruct (list_collection_names h) as [e|names]; simpl|]].

(** The working text is reported for a working store only: every failure
    state leaves another text. *)
Lemma status_text_working st :
  status_text st = py "✅ Connected & Working" ↔ is_Some (enumerated st).
Proof.
  unfold status_text, enumerated.
  destruct st as [[[] s]|m]; cbn [exn_type str];
    [..|destruct (db m) as [h|]; [destruct (list_collection_names h) as [e|names]|]];
    (split; [|by intros [? [=]] || by eauto]);
    first [by eauto | intros E; exfalso; revert E; vm_compute; discriminate].
Qed.

(** C6. In every storage state (module missing, import raising, handle
    [None], enumeration raising, all working) and every environment the
    answer is 200, never an error status.  Its body is the diagnostic
    object with its six fields, and the state of the store is told by the
    body alone: [backend] always reads as running, [database] carries the
    text of the state (for a failure, the kind of failure and the first
    characters of the exception), [connection_status] tells whether the
    handle is initialised, and [collections] lists what was enumerated.
    The text of a working store is reported for a working store only. *)
Theorem test_never_fails st env :
  (∃ b, (GET_test st env).1 = {| status := 200; body := VDict b |} ∧
        dom b = {[ py "backend"; py "database"; py "database_url";
                   py "database_name"; py "connection_status"; py "collections" ]} ∧
        b !! py "backend" = Some (VStr (py "✅ Running")) ∧
        (∃ text, b !! py "database" = Some (VStr text)) ∧
        b !! py "database" = Some (VStr (status_text st)) ∧
        b !! py "connection_status"
          = Some (VStr (if initialised st
                        then py "Connected" else py "Not Connected")) ∧
        b !! py "collections"
          = Some (VList (VStr <$> take 10 (default [] (enumerated st))))) ∧
  (status_text st = py "✅ Connected & Working" ↔ is_Some (enumerated st)).
Proof.
  split; [|apply status_text_working].
  cases_of_storage st; eexists; (split; [reflexivity|]);
    (split; [rewrite !dom_insert_L, dom_singleton_L; set_solver|]);
    (split; [by vm_compute|]); (split; [eexists; by vm_compute|]);
    (split; [by vm_compute|]); (split; [by vm_compute|]); by vm_compute.
Qed.

(** C7. With an initialised handle the collection names are enumerated
    (one call).  On success the first 10 names, at most, are reported and
    [database] reads connected and working.  When the enumeration raises
    [e], [database] carries the first 50 characters, at most, of [str(e)]
    and [connection_status] still reads [Connected]. *)
Theorem test_enumerates m h env :
  db m = Some h →
  (GET_test (Available m) env).2 = [ListCollectionNames] ∧
  body_field (GET_test (Available m) env).1 "connection_status"
    = Some (VStr (py "Connected")) ∧
  (∀ names, list_collection_names h = inr names →
     body_field (GET_test (Available m) env).1 "collections"
       = Some (VList (VStr <$> take 10 names)) ∧
     length (take 10 names) ≤ 10 ∧
     body_field (GET_test (Available m) env).1 "database"
       = Some (VStr (py "✅ Connected & Working"))) ∧
  (∀ e, list_collection_names h = inl e →
     body_field (GET_test (Available m) env).1 "database"
       = Some (VStr (py "⚠️  Connected but Error: " ++ take 50 (str e))) ∧
     length (take 50 (str e)) ≤ 50 ∧
     body_field (GET_test (Available m) env).1 "collections" = Some (VList [])).
Proof.
  intros Hdb. unfold body_field. run_test. rewrite Hdb. simpl.
  destruct (list_collection_names h) as [e|names]; simpl;
    (split; [done|]); (split; [by vm_compute|]);
    (split; [intros ? [= <-] | intros ? [= <-]]);
    (split; [by vm_compute|]); (split; [|by vm_compute]);
    rewrite length_take; lia.
Qed.

(** C8 (as amended). The two configuration fields are decided by whether
    each variable holds a non-empty value, and by nothing else: each is one
    of two fixed texts, whatever the storage state, so two runs whose
    environments agree on which of the two variables are non-empty report
    the same two fields. *)
Theorem test_config_fields st1 env1 :
  (body_field (GET_test st1 env1).1 "database_url"
     = Some (VStr (if truthy (getenv env1 "DATABASE_URL")
                   then py "✅ Set" else py "❌ Not Set")) ∧
   body_field (GET_test st1 env1).1 "database_name"
     = Some (VStr (if truthy (getenv env1 "DATABASE_NAME")
                   then py "✅ Set" else py "❌ Not Set"))) ∧
  ∀ st2 env2,
    truthy (getenv env1 "DATABASE_URL") = truthy (getenv env2 "DATABASE_URL") →
    truthy (getenv env1 "DATABASE_NAME") = truthy (getenv env2 "DATABASE_NAME") →
    body_field (GET_test st1 env1).1 "database_url"
      = body_field (GET_test st2 env2).1 "database_url" ∧
    body_field (GET_test st1 env1).1 "database_name"
      = body_field (GET_test st2 env2).1 "database_name".
Proof.
  assert (∀ st env,
    body_field (GET_test st env).1 "database_url"
      = Some (VStr (if truthy (getenv env "DATABASE_URL")
                    then py "✅ Set" else py "❌ Not Set")) ∧
    body_field (GET_test st env).1 "database_name"
      = Some (VStr (if truthy (getenv env "DATABASE_NAME")
                    then py "✅ Set" else py "❌ Not Set"))) as Hfields.
  { intros st env. unfold body_field.
    cases_of_storage st; split;
      first [ apply lookup_insert_eq
            | rewrite lookup_insert_ne by (by vm_compute); apply lookup_insert_eq ]. }
  split; [apply Hfields|]. intros st2 env2 Hurl Hname.
  destruct (Hfields st1 env1) as [-> ->], (Hfields st2 env2) as [-> ->].
  by rewrite Hurl, Hname.
Qed.

End Test_properties.

(** ** [GET /api/projects] *)

Section Projects_properties.
Context `{Pydantic}.

Lemma validate_list_str_strs l :
  forallb is_str l = true → validate_list_str l = Some (omap the_str l).
Proof.
  intros Hl. apply mapM_Some.
  induction l as [|v l IH]; simpl in *; [constructor|].
  apply andb_prop in Hl as [Hv Hl]. destruct v; try done.
  constructor; [apply validate_str_VStr | by apply IH].
Qed.

Lemma validate_list_str_fmap l : validate_list_str (VStr <$> l) = Some l.
Proof.
  apply mapM_Some. induction l as [|s l IH]; simpl; constructor; [|done].
  apply validate_str_VStr.
Qed.

Lemma validate_optional_str_ok v :
  is_optional_str v = true → validate_optional_str v = Some (the_str v).
Proof. destruct v; simpl; try done. intros _. by rewrite validate_str_VStr. Qed.

Lemma validate_optional_str_json o :
  validate_optional_str (option_json o) = Some o.
Proof. destruct o; simpl; [by rewrite validate_str_VStr | done]. Qed.

Lemma get_str_ok (d : gmap pystr value) k dflt :
  field_ok is_str d k = true →
  validate_str (dict_get d (py k) (VStr dflt)) = Some (str_or dflt (d !! py k)).
Proof.
  unfold field_ok, dict_get, str_or.
  destruct (d !! py k) as [[]|]; simpl; try done; intros _; apply validate_str_VStr.
Qed.

Lemma get_optional_str_ok (d : gmap pystr value) k :
  field_ok is_optional_str d k = true →
  validate_optional_str (dict_get d (py k) VNone) = Some (str_or_absent (d !! py k)).
Proof.
  unfold field_ok, dict_get, str_or_absent.
  destruct (d !! py k) as [v|]; simpl; [apply validate_optional_str_ok | done].
Qed.

Lemma get_list_str_ok (d : gmap pystr value) k :
  field_ok is_list_str d k = true →
  ∃ l, py_list (dict_get d (py k) (VList [])) = inr l ∧
       validate_list_str l = Some (strs_or_empty (d !! py k)).
Proof.
  unfold field_ok, dict_get, strs_or_empty.
  destruct (d !! py k) as [[]|]; simpl; try done.
  - intros Hl. eexists. split; [done|]. by apply validate_list_str_strs.
  - intros _. by exists [].
Qed.

(** A valid document is mapped to the record the specification describes,
    and nothing is raised. *)
Lemma project_of_doc_valid d f :
  valid_document d = true →
  project_of_doc d f = (inr (default_substitution d), f).
Proof.
  unfold valid_document. intros Hv.
  repeat (apply andb_prop in Hv as [Hv ?]).
  destruct (get_list_str_ok d "tech") as (l & Hl & Hte); [done|].
  unfold project_of_doc, default_substitution, mbind, M_bind, bind, lift,
    ProjectOut_new.
  rewrite Hl, Hte, !get_str_ok, !get_optional_str_ok by done. reflexivity.
Qed.

Lemma for_docs_valid docs : ∀ out f,
  Forall (λ d, valid_document d = true) docs →
  for_docs docs out f = (inr (out ++ (default_substitution <$> docs)), f).
Proof.
  induction docs as [|d docs IH]; intros out f Hv; simpl.
  - by rewrite app_nil_r.
  - inversion_clear Hv as [|? ? Hd Hdocs].
    unfold mbind, M_bind, bind. rewrite project_of_doc_valid by done.
    rewrite IH by done. by rewrite <- app_assoc.
Qed.

(** Building a [ProjectOut] from well-typed arguments returns the record. *)
Lemma ProjectOut_new_typed t s te th lu gu cu :
  ProjectOut_new (VStr t) (VStr s) (VStr <$> te)
    (option_json th) (option_json lu) (option_json gu) (option_json cu)
  = inr (ProjectOut.mk t s te th lu gu cu).
Proof.
  unfold ProjectOut_new.
  by rewrite !validate_str_VStr, validate_list_str_fmap, !validate_optional_str_json.
Qed.

Ltac build_example p :=
  lazymatch p with
  | ProjectOut.mk ?t ?s ?te ?th ?lu ?gu ?cu =>
      let E := fresh "E" in
      pose proof (ProjectOut_new_typed t s te th lu gu cu) as E;
      cbn [option_json fmap list_fmap] in E; rewrite E; clear E
  end.

(** The three constructor calls succeed and build [fallback]. *)
Lemma curated_examples_run f : curated_examples f = (inr fallback, f).
Proof.
  unfold curated_examples, mbind, M_bind, bind, lift, fallback.
  lazymatch goal with
  | |- _ = (inr [?p1; ?p2; ?p3], _) =>
      build_example p1; build_example p2; build_example p3
  end.
  reflexivity.
Qed.

(** What the [try] block of [get_projects] leaves behind, case by case. *)
Lemma get_projects_run st f :
  get_projects st f =
  match st with
  | Unavailable _ => (inr fallback, f)
  | Available m =>
      let f' := Frame (response f) (calls f ++ [GetDocuments (py "project") 12]) in
      match get_documents m (py "project") 12 with
      | inl _ => (inr fallback, f')
      | inr docs =>
          match for_docs docs [] f' with
          | (inr (p :: out), f'') => (inr (p :: out), f'')
          | (_, f'') => (inr fallback, f'')
          end
      end
  end.
Proof.
  unfold get_projects, try_except, call_get_documents, mbind, M_bind, bind.
  destruct st as [e|m]; simpl; [apply curated_examples_run|].
  destruct (get_documents m _ 12) as [e|docs]; simpl; [apply curated_examples_run|].
  destruct (for_docs docs [] _) as [[e|[|p out]] f'']; simpl;
    first [apply curated_examples_run | reflexivity].
Qed.

(** Every [ProjectOut], once serialised, satisfies the [Project] schema. *)
Lemma Project_new_json p : Project_new (ProjectOut_json p) = inr p.
Proof.
  unfold Project_new, required_str, field_list_str, field_optional_str, ProjectOut_json.
  repeat (rewrite lookup_insert_eq || rewrite lookup_insert_ne by (by vm_compute)).
  rewrite lookup_singleton_eq. simpl.
  rewrite !validate_str_VStr, validate_list_str_fmap, !validate_optional_str_json.
  by destruct p.
Qed.

Lemma default_substitution_empty :
  default_substitution ∅ =
  ProjectOut.mk (py "Untitled") (py "") [] None None None None.
Proof. reflexivity. Qed.

(** C4. When the module cannot be imported, when the fetch raises, and
    when it returns no document, the answer is the same: 200 with the
    fixed sequence of three examples, each of which satisfies the
    [Project] schema. *)
Theorem projects_fallback st :
  (∃ e, st = Unavailable e) ∨
  (∃ m e, st = Available m ∧ get_documents m (py "project") 12 = inl e) ∨
  (∃ m, st = Available m ∧ get_documents m (py "project") 12 = inr []) →
  (GET_api_projects st).1 = {| status := 200; body := projects_json fallback |} ∧
  length fallback = 3 ∧
  Forall (λ p, Project_new (ProjectOut_json p) = inr p) fallback.
Proof.
  intros Hst. split; [|split; [done|]].
  - unfold GET_api_projects, respond. rewrite get_projects_run.
    destruct Hst as [[e ->] | [(m & e & -> & ->) | (m & -> & ->)]]; done.
  - apply Forall_forall. intros p _. apply Project_new_json.
Qed.

(** C5 (as amended). When the fetch returns at least one document and
    every fetched document is valid, the answer is 200 with exactly the
    fetched documents, in storage order, each mapped with the defaults of
    section 3; at most 12 were asked for, so at most 12 are returned by a
    collaborator that honours its limit. *)
Theorem projects_mapped m docs :
  get_documents m (py "project") 12 = inr docs →
  docs ≠ [] →
  Forall (λ d, valid_document d = true) docs →
  GET_api_projects (Available m) =
    ({| status := 200; body := projects_json (default_substitution <$> docs) |},
     [GetDocuments (py "project") 12]) ∧
  length (default_substitution <$> docs) = length docs ∧
  (honours_limit m → length docs ≤ 12).
Proof.
  intros Hfetch Hne Hvalid. split; [|split].
  - unfold GET_api_projects, respond. rewrite get_projects_run, Hfetch. simpl.
    rewrite for_docs_valid by done. simpl.
    destruct docs as [|d docs]; [done|]. reflexivity.
  - apply length_fmap.
  - intros Hlimit. by apply (Hlimit (py "project")).
Qed.

(** C10. In every storage state the answer is 200 with a non-empty list:
    the fallback sequence, or what the loop built from the fetched
    documents. *)
Theorem projects_never_empty st :
  ∃ l, (GET_api_projects st).1 = {| status := 200; body := projects_json l |} ∧
       l ≠ [] ∧
       (l = fallback ∨
        ∃ m docs f f', st = Available m ∧
                       get_documents m (py "project") 12 = inr docs ∧
                       for_docs docs [] f = (inr l, f')).
Proof.
  unfold GET_api_projects, respond. rewrite get_projects_run.
  destruct st as [e|m]; [exists fallback; by auto|]. simpl.
  destruct (get_documents m _ 12) as [e|docs] eqn:Hfetch; [exists fallback; by auto|].
  destruct (for_docs docs [] _) as [[e|[|p out]] f''] eqn:Hloop;
    [exists fallback; by auto ..|].
  exists (p :: out). split; [done|]. split; [done|]. right. eauto 10.
Qed.

End Projects_properties.

(** ** Concrete runs *)

(** Counterexample to C1 as stated: the second scenario of the specification.
    All three fields violate the Contact constraints, and the answer is
    200 with the fallback body, not a client error. *)
Lemma contact_invalid_answered_200 :
  let r := (POST_api_contact (H:=pydantic_v2)
              (Available (working_database ∅ (py "abc123"))) (VDict bad_body)).1 in
  length (py "A") < 2 ∧ simple_email (py "bad") = None ∧ length (py "short") < 10 ∧
  status r = 200 ∧ client_error r = false ∧ body r = VDict soft_success.
Proof.
  repeat split; try (vm_compute; lia).
  all: vm_compute; reflexivity.
Qed.

(** Counterexample to C5 as stated: the fetch succeeds with one document,
    whose [title] is null; [ProjectOut] rejects it inside the [try], and the
    answer is the three curated examples, not the one fetched document. *)
Lemma projects_null_title_falls_back :
  let doc : gmap pystr value := {[ py "title" := VNone ]} in
  let m := working_database {[ py "project" := [doc] ]} (py "abc123") in
  get_documents m (py "project") 12 = inr [doc] ∧
  (GET_api_projects (H:=pydantic_v2) (Available m)).1
    = {| status := 200; body := projects_json fallback |} ∧
  length fallback ≠ length [doc].
Proof.
  repeat split; [vm_compute; reflexivity ..|]. simpl; lia.
Qed.

(** Counterexample to C8 as stated: both environments have [DATABASE_URL]
    present and [DATABASE_NAME] absent, yet [database_url] differs, because
    an empty value is falsy. *)
Lemma config_empty_value_reads_not_set :
  let env1 : gmap pystr pystr := {[ py "DATABASE_URL" := py "" ]} in
  let env2 : gmap pystr pystr := {[ py "DATABASE_URL" := py "mongodb://localhost:27017" ]} in
  (is_Some (getenv env1 "DATABASE_URL") ↔ is_Some (getenv env2 "DATABASE_URL")) ∧
  (is_Some (getenv env1 "DATABASE_NAME") ↔ is_Some (getenv env2 "DATABASE_NAME")) ∧
  body_field (GET_test absent env1).1 "database_url"
    ≠ body_field (GET_test absent env2).1 "database_url".
Proof.
  intros env1 env2. split; [|split].
  - split; intros _; vm_compute; eauto.
  - split; vm_compute; intros [x Hx]; discriminate Hx.
  - intros E; vm_compute in E; discriminate E.
Qed.

(** The modelled collaborator returns at most [limit] documents. *)
Lemma working_database_honours_limit colls new_id :
  honours_limit (working_database colls new_id).
Proof. intros c n docs [= <-]. rewrite length_take. lia. Qed.

(** C1 (as amended), on the second scenario of the specification. *)
Lemma contact_invalid_not_persisted_witness :
  POST_api_contact (H:=pydantic_v2)
    (Available (working_database ∅ (py "abc123"))) (VDict bad_body)
    = ({| status := 200; body := VDict soft_success |}, []) ∧
  persistence_attempted
    (POST_api_contact (H:=pydantic_v2)
       (Available (working_database ∅ (py "abc123"))) (VDict bad_body)).2 = false.
Proof.
  apply (contact_invalid_not_persisted (H:=pydantic_v2) _ _
           (ContactIn.mk (py "A") (py "bad") (py "short"))).
  - vm_compute; reflexivity.
  - intros [Hn _]. vm_compute in Hn. lia.
Defined.

(** C2, on the first scenario with the database module missing. *)
Lemma contact_storage_failure_witness :
  ∃ b, (POST_api_contact (H:=pydantic_v2) absent (VDict good_body)).1
         = {| status := 200; body := VDict b |} ∧
       b !! py "success" = Some (VBool true) ∧
       b !! py "id" = Some VNone ∧
       ∃ note, b !! py "note" = Some (VStr note) ∧ note ≠ [].
Proof.
  apply (contact_storage_failure (H:=pydantic_v2) absent (VDict good_body)
           (ContactIn.mk (py "Al") (py "a@b.com")
              (py "Hello there, this is long enough."))).
  - vm_compute; reflexivity.
  - repeat split; try (vm_compute; lia). eexists. vm_compute; reflexivity.
  - left. eexists. reflexivity.
Defined.

(** C3, on the first scenario of the specification. *)
Lemma contact_stored_witness :
  POST_api_contact (H:=pydantic_v2)
    (Available (working_database ∅ (py "abc123"))) (VDict good_body)
  = ({| status := 200; body := VDict (stored (py "abc123")) |},
     [CreateDocument (py "contact")
        (Contact.mk (py "Al") (py "a@b.com")
           (py "Hello there, this is long enough."))]).
Proof.
  apply (contact_stored (H:=pydantic_v2) (working_database ∅ (py "abc123"))
           (VDict good_body)
           (ContactIn.mk (py "Al") (py "a@b.com")
              (py "Hello there, this is long enough."))).
  - vm_compute; reflexivity.
  - repeat split; try (vm_compute; lia). eexists. vm_compute; reflexivity.
  - vm_compute; reflexivity.
  - reflexivity.
Defined.

(** C9, on the second scenario against a database whose insert raises. *)
Lemma contact_always_success_witness :
  ∃ b, (POST_api_contact (H:=pydantic_v2)
          (Available (failing_database (Exn OtherError (py "write failed"))))
          (VDict bad_body)).1
         = {| status := 200; body := VDict b |} ∧
       b !! py "success" = Some (VBool true).
Proof.
  apply (proj2 (contact_always_success (H:=pydantic_v2) _)
           bad_body (py "A") (py "bad") (py "short"));
    vm_compute; reflexivity.
Defined.

(** C6, on a working store: its text is the working one. *)
Lemma test_never_fails_witness :
  status_text (Available (working_database ∅ (py "abc123")))
    = py "✅ Connected & Working".
Proof.
  exact (proj2 (proj2 (test_never_fails
                         (Available (working_database ∅ (py "abc123"))) ∅))
           (ex_intro _ _ eq_refl)).
Defined.

(** C7, on a handle whose enumeration raises. *)
Lemma test_enumerates_witness :
  body_field
    (GET_test (Available (failing_database (Exn OtherError (py "not authorized")))) ∅).1
    "connection_status" = Some (VStr (py "Connected")).
Proof.
  exact (proj1 (proj2
    (test_enumerates (failing_database (Exn OtherError (py "not authorized")))
       erroring_handle ∅ eq_refl))).
Defined.

(** C8 (as amended), on two runs that differ in storage state and in the
    value of [DATABASE_URL]. *)
Lemma test_config_fields_witness :
  let env1 : gmap pystr pystr := {[ py "DATABASE_URL" := py "mongodb://a" ]} in
  let env2 : gmap pystr pystr := {[ py "DATABASE_URL" := py "mongodb://b" ]} in
  body_field (GET_test absent env1).1 "database_url"
    = body_field (GET_test (Available uninitialised_database) env2).1 "database_url" ∧
  body_field (GET_test absent env1).1 "database_name"
    = body_field (GET_test (Available uninitialised_database) env2).1 "database_name".
Proof.
  intros env1 env2.
  apply (proj2 (test_config_fields absent env1)
           (Available uninitialised_database) env2);
    vm_compute; reflexivity.
Defined.

(** C4, on the three triggers: module missing, fetch raising, no document. *)
Lemma projects_fallback_witness :
  (GET_api_projects (H:=pydantic_v2) absent).1
    = {| status := 200; body := projects_json fallback |} ∧
  (GET_api_projects (H:=pydantic_v2)
     (Available (failing_database (Exn OtherError (py "connection refused"))))).1
    = {| status := 200; body := projects_json fallback |} ∧
  (GET_api_projects (H:=pydantic_v2)
     (Available (working_database ∅ (py "abc123")))).1
    = {| status := 200; body := projects_json fallback |}.
Proof.
  split; [|split].
  - apply (projects_fallback (H:=pydantic_v2) absent).
    left. eexists. reflexivity.
  - apply (projects_fallback (H:=pydantic_v2)
             (Available (failing_database (Exn OtherError (py "connection refused"))))).
    right. left. eexists _, _. split; reflexivity.
  - apply (projects_fallback (H:=pydantic_v2)
             (Available (working_database ∅ (py "abc123")))).
    right. right. eexists. split; reflexivity.
Defined.

(** C5 (as amended), on two valid documents. *)
Lemma projects_mapped_witness :
  GET_api_projects (H:=pydantic_v2)
    (Available (working_database {[ py "project" := two_documents ]} (py "abc123")))
  = ({| status := 200;
        body := projects_json (default_substitution <$> two_documents) |},
     [GetDocuments (py "project") 12]).
Proof.
  apply (projects_mapped (H:=pydantic_v2)
           (working_database {[ py "project" := two_documents ]} (py "abc123"))
           two_documents).
  - vm_compute; reflexivity.
  - discriminate.
  - repeat constructor; vm_compute; reflexivity.
Defined.

(** * Further properties *)

(** ** [GET /test] *)

Section More_test_properties.

Ltac run_test :=
  unfold GET_test, respond, test_database, try_except, mbind, M_bind, bind; simpl.

Ltac storage_cases st :=
  let c := fresh "c" in
  let s := fresh "s" in
  let m := fresh "m" in
  let h := fresh "h" in
  let e := fresh "e" in
  let names := fresh "names" in
  destruct st as [[c s]|m]; [destruct c; run_test ..|];
  [..|run_test; destruct (db m) as [h|]; simpl;
      [destruct (list_collection_names h) as [e|names]; simpl|]].

(** X1. When the import of the database module raises, [database] reads
    "module not found" for an [ImportError] and otherwise carries the first
    50 characters of [str(e)]; the connection reads not connected, no
    collection is listed and no call is made. *)
Theorem test_module_unavailable e env :
  body_field (GET_test (Unavailable e) env).1 "database"
    = Some (VStr (match exn_type e with
                  | ImportError =>
                      py "❌ Database module not found (run enable-database first)"
                  | _ => py "❌ Error: " ++ take 50 (str e)
                  end)) ∧
  body_field (GET_test (Unavailable e) env).1 "connection_status"
    = Some (VStr (py "Not Connected")) ∧
  body_field (GET_test (Unavailable e) env).1 "collections" = Some (VList []) ∧
  (GET_test (Unavailable e) env).2 = [].
Proof.
  unfold body_field. destruct e as [[] s]; run_test;
    (split; [by vm_compute|]); (split; [by vm_compute|]); (split; [by vm_compute|]);
    reflexivity.
Qed.

(** X2. When the module imports but [db] is [None], [database] reads
    available but not initialized, the connection reads not connected, no
    collection is listed and [list_collection_names] is not called. *)
Theorem test_uninitialised m env :
  db m = None →
  body_field (GET_test (Available m) env).1 "database"
    = Some (VStr (py "⚠️  Available but not initialized")) ∧
  body_field (GET_test (Available m) env).1 "connection_status"
    = Some (VStr (py "Not Connected")) ∧
  body_field (GET_test (Available m) env).1 "collections" = Some (VList []) ∧
  (GET_test (Available m) env).2 = [].
Proof.
  intros Hdb. unfold body_field. run_test. rewrite Hdb. simpl.
  (split; [by vm_compute|]); (split; [by vm_compute|]); (split; [by vm_compute|]);
    reflexivity.
Qed.

(** X3. Whatever the storage state and however long the text of a raised
    exception, the text of [database] has at most 75 characters. *)
Lemma test_status_text st env :
  body_field (GET_test st env).1 "database" = Some (VStr (status_text st)).
Proof. unfold body_field. storage_cases st; by vm_compute. Qed.

Theorem test_status_text_bounded st env :
  ∃ text, body_field (GET_test st env).1 "database" = Some (VStr text) ∧
          length text ≤ 75.
Proof.
  exists (status_text st). split; [apply test_status_text|].
  unfold status_text.
  destruct st as [[[] s]|m]; cbn [exn_type str];
    [..|destruct (db m) as [h|]; [destruct (list_collection_names h) as [e|names]|]];
    rewrite ?length_app, ?length_take;
    repeat match goal with
           | |- context [length (py ?s)] =>
               let n := eval vm_compute in (length (py s)) in
               change (length (py s)) with n
           end; lia.
Qed.

(** X4. [GET /test] calls [list_collection_names] once when the handle is
    initialised and makes no call otherwise; it never fetches or inserts a
    document. *)
Theorem test_calls st env :
  (GET_test st env).2 = if initialised st then [ListCollectionNames] else [].
Proof. storage_cases st; reflexivity. Qed.

(** X5. The environment decides nothing but the two configuration
    fields: [backend], [database], [connection_status] and [collections]
    are the same under any two environments. *)
Theorem test_storage_fields_ignore_environment st env1 env2 :
  body_field (GET_test st env1).1 "backend"
    = body_field (GET_test st env2).1 "backend" ∧
  body_field (GET_test st env1).1 "database"
    = body_field (GET_test st env2).1 "database" ∧
  body_field (GET_test st env1).1 "connection_status"
    = body_field (GET_test st env2).1 "connection_status" ∧
  body_field (GET_test st env1).1 "collections"
    = body_field (GET_test st env2).1 "collections".
Proof.
  unfold body_field. storage_cases st; repeat split; by vm_compute.
Qed.

End More_test_properties.

(** ** [GET /api/projects] and the [Project] schema *)

Section More_projects_properties.
Context `{Pydantic}.

(** The loop body makes no call and leaves the frame as it is. *)
Lemma project_of_doc_frame d f : (project_of_doc d f).2 = f.
Proof.
  unfold project_of_doc, mbind, M_bind, bind, lift.
  by destruct (py_list _).
Qed.

Lemma for_docs_frame docs : ∀ out f, (for_docs docs out f).2 = f.
Proof.
  induction docs as [|d docs IH]; intros out f; simpl; [done|].
  unfold mbind, M_bind, bind.
  pose proof (project_of_doc_frame d f) as Hd.
  destruct (project_of_doc d f) as [[e|p] f1]; simpl in Hd; subst f1; [done|].
  apply IH.
Qed.

(** Each iteration appends exactly one record. *)
Lemma for_docs_length docs : ∀ out f l f',
  for_docs docs out f = (inr l, f') → length l = length out + length docs.
Proof.
  induction docs as [|d docs IH]; intros out f l f'; simpl.
  - intros [= <- _]. lia.
  - unfold mbind, M_bind, bind.
    destruct (project_of_doc d f) as [[e|p] f1]; [done|].
    intros Hl%IH. rewrite length_app in Hl. simpl in Hl. lia.
Qed.

(** A raising iteration ends the loop, whatever came before. *)
Lemma for_docs_raises docs d :
  d ∈ docs →
  (∀ f, ∃ e, project_of_doc d f = (inl e, f)) →
  ∀ out f, ∃ e f', for_docs docs out f = (inl e, f').
Proof.
  intros Hin Hd. induction docs as [|a docs IH]; intros out f.
  - by apply elem_of_nil in Hin.
  - simpl. unfold mbind, M_bind, bind.
    destruct (project_of_doc a f) as [[e|p] f1] eqn:Ha; [by eauto|].
    apply elem_of_cons in Hin as [->|Hin].
    + destruct (Hd f) as [e He]. congruence.
    + by apply IH.
Qed.

Lemma project_of_doc_not_iterable d f :
  is_iterable (dict_get d (py "tech") (VList [])) = false →
  ∃ e, project_of_doc d f = (inl e, f).
Proof.
  unfold project_of_doc, mbind, M_bind, bind, lift.
  destruct (dict_get d (py "tech") (VList [])); simpl; try done; eauto.
Qed.

(** X6. [GET /api/projects] makes exactly one call,
    [get_documents("project", limit=12)], when the module imports, and none
    when it does not; it never inserts a document. *)
Theorem projects_calls st :
  (GET_api_projects st).2 =
  match st with
  | Unavailable _ => []
  | Available _ => [GetDocuments (py "project") 12]
  end.
Proof.
  unfold GET_api_projects, respond. rewrite get_projects_run.
  destruct st as [e|m]; [done|]. simpl.
  destruct (get_documents m _ 12) as [e|docs]; [done|].
  pose proof (for_docs_frame docs []
                (Frame ∅ [GetDocuments (py "project") 12])) as Hf.
  destruct (for_docs docs [] _) as [[e|[|p out]] f'']; simpl in Hf; by subst f''.
Qed.

(** X7. One fetched document whose [tech] is not iterable (null, a
    number, a boolean) makes [list(...)] raise inside the loop: the answer
    is the three curated examples, whatever the other documents are. *)
Theorem projects_one_bad_document m docs d :
  get_documents m (py "project") 12 = inr docs →
  d ∈ docs →
  is_iterable (dict_get d (py "tech") (VList [])) = false →
  (GET_api_projects (Available m)).1
    = {| status := 200; body := projects_json fallback |}.
Proof.
  intros Hfetch Hin Hbad.
  unfold GET_api_projects, respond. rewrite get_projects_run, Hfetch. simpl.
  destruct (for_docs_raises docs d Hin
              (λ f, project_of_doc_not_iterable d f Hbad) []
              (Frame ∅ [GetDocuments (py "project") 12])) as (e & f' & ->).
  reflexivity.
Qed.

(** X8. A document whose [tech] is a string, its other fields being
    valid, is accepted: [list(...)] splits the string, and [tech] is
    returned as its characters, one string each. *)
Theorem project_tech_string d s f :
  d !! py "tech" = Some (VStr s) →
  field_ok is_str d "title" = true →
  field_ok is_str d "summary" = true →
  field_ok is_optional_str d "thumbnail" = true →
  field_ok is_optional_str d "live_url" = true →
  field_ok is_optional_str d "github_url" = true →
  field_ok is_optional_str d "case_study_url" = true →
  ∃ p, project_of_doc d f = (inr p, f) ∧
       ProjectOut.tech p = (λ c, [c]) <$> s ∧
       length (ProjectOut.tech p) = length s.
Proof.
  intros Htech Ht Hs H1 H2 H3 H4.
  unfold project_of_doc, mbind, M_bind, bind, lift, ProjectOut_new.
  assert (dict_get d (py "tech") (VList []) = VStr s) as ->
    by (unfold dict_get; by rewrite Htech).
  simpl.
  replace ((λ c, VStr [c]) <$> s) with (VStr <$> ((λ c : N, [c]) <$> s))
    by (by rewrite <- list_fmap_compose).
  rewrite validate_list_str_fmap, !get_str_ok, !get_optional_str_ok by done.
  eexists. split; [reflexivity|]. simpl. split; [done|]. by rewrite length_fmap.
Qed.

(** X9. The list returned has three elements or as many as were fetched;
    with a collaborator that honours its limit it has between 1 and 12. *)
Theorem projects_length st :
  ∃ l, (GET_api_projects st).1 = {| status := 200; body := projects_json l |} ∧
       (length l = 3 ∨
        ∃ m docs, st = Available m ∧
                  get_documents m (py "project") 12 = inr docs ∧
                  length l = length docs) ∧
       (∀ m, st = Available m → honours_limit m → 1 ≤ length l ≤ 12).
Proof.
  unfold GET_api_projects, respond. rewrite get_projects_run.
  destruct st as [e|m]; [exists fallback; repeat split; [by left | done..]|]. simpl.
  destruct (get_documents m _ 12) as [e|docs] eqn:Hfetch;
    [exists fallback; repeat split; [by left | simpl; lia..]|].
  destruct (for_docs docs [] _) as [[e|[|p out]] f''] eqn:Hloop;
    [exists fallback; repeat split; [by left | simpl; lia..] ..|].
  apply for_docs_length in Hloop. simpl in Hloop.
  exists (p :: out). split; [done|]. split.
  - right. exists m, docs. repeat split; [done | simpl; lia].
  - intros ? [= <-] Hlimit. apply (Hlimit (py "project")) in Hfetch.
    simpl in *. lia.
Qed.

Lemma project_of_doc_same_fields d1 d2 f :
  same_project_fields d1 d2 → project_of_doc d1 f = project_of_doc d2 f.
Proof.
  unfold same_project_fields, project_fields. intros Hs.
  repeat (apply Forall_cons in Hs as [? Hs]). cbv beta in *.
  unfold project_of_doc, dict_get.
  repeat match goal with
         | E : d1 !! _ = d2 !! _ |- _ => rewrite E; clear E
         end.
  reflexivity.
Qed.

Lemma for_docs_same_fields docs1 docs2 :
  Forall2 same_project_fields docs1 docs2 →
  ∀ out f, for_docs docs1 out f = for_docs docs2 out f.
Proof.
  induction 1 as [|d1 d2 docs1 docs2 Hd _ IH]; intros out f; simpl; [done|].
  unfold mbind, M_bind, bind. rewrite (project_of_doc_same_fields d1 d2 f Hd).
  destruct (project_of_doc d2 f) as [[e|p] f1]; [done|]. apply IH.
Qed.

(** X10. Only the seven keys of the Project shape are read: two stores
    whose fetched documents agree on those keys, pairwise, get the same
    answer and the same calls, whatever else the documents hold. *)
Theorem projects_ignore_other_keys m1 m2 docs1 docs2 :
  get_documents m1 (py "project") 12 = inr docs1 →
  get_documents m2 (py "project") 12 = inr docs2 →
  Forall2 same_project_fields docs1 docs2 →
  GET_api_projects (Available m1) = GET_api_projects (Available m2).
Proof.
  intros H1 H2 Hsame. unfold GET_api_projects, respond.
  rewrite !get_projects_run, H1, H2. simpl.
  by rewrite (for_docs_same_fields docs1 docs2 Hsame).
Qed.

(** X11. Round trip: a [ProjectOut], serialised, validates against the
    [Project] schema and gives the same record back; so different records
    serialise differently. *)
Theorem project_json_round_trip p q :
  Project_new (ProjectOut_json p) = inr p ∧
  (ProjectOut_json p = ProjectOut_json q → p = q).
Proof.
  split; [apply Project_new_json|]. intros Heq.
  pose proof (Project_new_json p) as Hp. rewrite Heq, Project_new_json in Hp.
  congruence.
Qed.

(** X12. The [Project] schema requires [title] and [summary]: a document
    that lacks one is rejected with an error naming it (where
    [get_projects] would substitute a default). *)
Theorem Project_requires_title_and_summary d :
  (d !! py "title" = None →
   ∃ fields, Project_new d = inl (validation_error fields) ∧ py "title" ∈ fields) ∧
  (d !! py "summary" = None →
   ∃ fields, Project_new d = inl (validation_error fields) ∧ py "summary" ∈ fields).
Proof.
  split; intros Hnone; unfold Project_new, required_str; rewrite Hnone; simpl.
  - eexists. split; [reflexivity|]. by left.
  - destruct (d !! py "title" ≫= validate_str); simpl;
      (eexists; split; [reflexivity|]); rewrite ?elem_of_cons; auto.
Qed.

End More_projects_properties.

(** ** [POST /api/contact] and the [Contact] schema *)

Section More_contact_properties.
Context `{Pydantic}.

Lemma contact_field_names_differ :
  py "name" ≠ py "email" ∧ py "name" ≠ py "message" ∧ py "email" ≠ py "message".
Proof. repeat split; vm_compute; discriminate. Qed.

Lemma elem_of_check k' k b : k' ∈ check k b ↔ b = false ∧ k' = py k.
Proof.
  unfold check. destruct b.
  - rewrite elem_of_nil. split; [done | by intros [? _]].
  - rewrite list_elem_of_singleton. split; [done | by intros [_ ?]].
Qed.

Lemma elem_of_failed {A} k' k (o : option A) :
  k' ∈ failed k o ↔ o = None ∧ k' = py k.
Proof.
  unfold failed. destruct o.
  - rewrite elem_of_nil. split; [done | by intros [? _]].
  - rewrite list_elem_of_singleton. split; [done | by intros [_ ?]].
Qed.

Lemma elem_of_Contact_errors k n e m :
  k ∈ Contact_errors n e m ↔
  (length n < 2 ∧ k = py "name") ∨
  (validate_email e = None ∧ k = py "email") ∨
  ((length m < 10 ∨ 2000 < length m) ∧ k = py "message").
Proof.
  unfold Contact_errors.
  rewrite elem_of_app, elem_of_app, elem_of_check, elem_of_check, elem_of_failed.
  rewrite andb_false_iff, !Nat.leb_gt. reflexivity.
Qed.

(** X13. The [Contact] schema reports exactly the fields that violate
    their constraint: [name] when shorter than 2, [email] when not a valid
    address, [message] when shorter than 10 or longer than 2000. *)
Theorem Contact_errors_exact n e m :
  (py "name" ∈ Contact_errors n e m ↔ length n < 2) ∧
  (py "email" ∈ Contact_errors n e m ↔ validate_email e = None) ∧
  (py "message" ∈ Contact_errors n e m ↔ length m < 10 ∨ 2000 < length m).
Proof.
  destruct contact_field_names_differ as (Hne & Hnm & Hem).
  repeat split.
  - intros [[? _]|[[_ E]|[_ E]]]%elem_of_Contact_errors;
      [done | by destruct Hne | by destruct Hnm].
  - intros ?. apply elem_of_Contact_errors. left. by split.
  - intros [[_ E]|[[? _]|[_ E]]]%elem_of_Contact_errors;
      [by destruct Hne | done | by destruct Hem].
  - intros ?. apply elem_of_Contact_errors. right. left. by split.
  - intros [[_ E]|[[_ E]|[? _]]]%elem_of_Contact_errors;
      [by destruct Hnm | by destruct Hem | done].
  - intros ?. apply elem_of_Contact_errors. right. right. by split.
Qed.

Lemma Contact_of_inr_valid p c : Contact_of p = inr c → valid_contact p.
Proof.
  unfold Contact_of, Contact_new, valid_contact.
  destruct (Contact_errors _ _ _) eqn:E; [|done].
  intros _. by apply Contact_errors_nil.
Qed.

(** X14. [create_document] is called if and only if the module imports,
    the body passes [ContactIn] and the payload is valid; it is called at
    most once per request. *)
Theorem contact_persistence_iff st raw :
  (persistence_attempted (POST_api_contact st raw).2 = true ↔
   ∃ m p, st = Available m ∧ ContactIn_parse raw = inr p ∧ valid_contact p) ∧
  length (POST_api_contact st raw).2 ≤ 1.
Proof.
  unfold POST_api_contact, respond.
  destruct (ContactIn_parse raw) as [fields|p] eqn:Hparse.
  { simpl. split; [|lia]. split; [done|]. by intros (? & ? & _ & ? & _). }
  rewrite post_contact_run.
  destruct st as [e|m].
  { simpl. split; [|lia]. split; [done|]. by intros (? & ? & ? & _). }
  destruct (Contact_of p) as [err|c] eqn:Hc.
  { simpl. split; [|lia]. split; [done|].
    intros (? & p' & _ & [= <-] & Hv).
    destruct (Contact_of_valid p Hv) as (? & _ & Hc'). congruence. }
  simpl. destruct (create_document m _ c); simpl;
    (split; [|lia]); (split; [|done]);
    intros _; exists m, p; eauto using Contact_of_inr_valid.
Qed.

(** X15. A request that reaches the handler is answered 200, and its body
    has either a null [id] with a [note], or a text [id] without [note];
    the latter only after a call to [create_document]. *)
Theorem contact_note_iff_no_id st raw p :
  ContactIn_parse raw = inr p →
  status (POST_api_contact st raw).1 = 200 ∧
  ((body_field (POST_api_contact st raw).1 "id" = Some VNone ∧
    ∃ note, body_field (POST_api_contact st raw).1 "note" = Some (VStr note)) ∨
   (∃ _id, body_field (POST_api_contact st raw).1 "id" = Some (VStr _id) ∧
           body_field (POST_api_contact st raw).1 "note" = None ∧
           persistence_attempted (POST_api_contact st raw).2 = true)).
Proof.
  intros Hparse. unfold POST_api_contact, respond. rewrite Hparse, post_contact_run.
  assert (body_field {| status := 200; body := VDict soft_success |} "id" = Some VNone ∧
          ∃ note, body_field {| status := 200; body := VDict soft_success |} "note"
                  = Some (VStr note)) as Hsoft.
  { split; [by vm_compute|]. eexists. by vm_compute. }
  destruct st as [e|m]; [by split; [|left]|].
  destruct (Contact_of p) as [err|c]; [by split; [|left]|]. simpl.
  destruct (create_document m _ c) as [err|_id]; [by split; [|left]|].
  split; [done|]. right. exists _id. simpl. repeat split; by vm_compute.
Qed.

(** X16. A JSON object lacking [name], [email] or [message] is answered
    422 with that field among the reported ones; the handler is not run and
    no call is made. *)
Theorem contact_missing_field_422 (st : storage) (d : gmap pystr value) (k : string) :
  k ∈ ["name"; "email"; "message"]%string →
  d !! py k = None →
  ∃ fields,
    POST_api_contact st (VDict d) = (unprocessable fields, []) ∧
    py k ∈ fields ∧
    status (unprocessable fields) = 422 ∧
    client_error (unprocessable fields) = true.
Proof.
  intros Hk Hnone. unfold POST_api_contact, ContactIn_parse, required_str.
  rewrite !elem_of_cons, elem_of_nil in Hk.
  destruct Hk as [->|[->|[->|[]]]]; rewrite Hnone; cbn [mbind option_bind];
    repeat match goal with
           | |- context [?d !! py ?s ≫= validate_str] =>
               destruct (d !! py s ≫= validate_str)
           end;
    (eexists; split; [reflexivity|]); (split; [|done]);
    unfold failed; cbn [app]; rewrite ?elem_of_cons; auto.
Qed.

End More_contact_properties.

(** ** Concrete runs of the further properties *)

(** X2, on a module whose [db] is [None]. *)
Lemma test_uninitialised_witness :
  body_field (GET_test (Available uninitialised_database) ∅).1 "database"
    = Some (VStr (py "⚠️  Available but not initialized")).
Proof.
  exact (proj1 (test_uninitialised uninitialised_database ∅ eq_refl)).
Defined.

(** X7, on a valid document followed by one whose [tech] is null. *)
Lemma projects_one_bad_document_witness :
  (GET_api_projects (H:=pydantic_v2)
     (Available (working_database {[ py "project" := good_then_bad ]} (py "abc123")))).1
    = {| status := 200; body := projects_json fallback |}.
Proof.
  apply (projects_one_bad_document (H:=pydantic_v2)
           (working_database {[ py "project" := good_then_bad ]} (py "abc123"))
           good_then_bad
           {[ py "title" := VStr (py "Shop"); py "tech" := VNone ]}).
  - vm_compute; reflexivity.
  - right. left.
  - vm_compute; reflexivity.
Defined.

(** X8, on a document whose [tech] is the string "Go". *)
Lemma project_tech_string_witness :
  ∃ p, project_of_doc (H:=pydantic_v2) tech_as_text new_frame = (inr p, new_frame) ∧
       ProjectOut.tech p = (λ c, [c]) <$> py "Go" ∧
       length (ProjectOut.tech p) = length (py "Go").
Proof.
  apply (project_tech_string (H:=pydantic_v2) tech_as_text (py "Go") new_frame);
    vm_compute; reflexivity.
Defined.

(** X9, on a store of two documents. *)
Lemma projects_length_witness :
  ∃ l, (GET_api_projects (H:=pydantic_v2)
          (Available (working_database {[ py "project" := two_documents ]}
                        (py "abc123")))).1
         = {| status := 200; body := projects_json l |} ∧
       1 ≤ length l ≤ 12.
Proof.
  destruct (projects_length (H:=pydantic_v2)
              (Available (working_database {[ py "project" := two_documents ]}
                            (py "abc123")))) as (l & Hl & _ & Hbound).
  exists l. split; [exact Hl|].
  apply (Hbound _ eq_refl). apply working_database_honours_limit.
Defined.

(** X10, on a document with and without an [_id] key. *)
Lemma projects_ignore_other_keys_witness :
  GET_api_projects (H:=pydantic_v2)
    (Available (working_database {[ py "project" := [bare_document] ]} (py "abc123")))
  = GET_api_projects (H:=pydantic_v2)
      (Available (working_database {[ py "project" := [stored_document] ]} (py "abc123"))).
Proof.
  apply (projects_ignore_other_keys (H:=pydantic_v2) _ _
           [bare_document] [stored_document]).
  - vm_compute; reflexivity.
  - vm_compute; reflexivity.
  - repeat constructor; vm_compute; reflexivity.
Defined.

(** X11, on a record with absent fields. *)
Lemma project_json_round_trip_witness :
  Project_new (H:=pydantic_v2) (ProjectOut_json example_project) = inr example_project.
Proof.
  exact (proj1 (project_json_round_trip (H:=pydantic_v2)
                  example_project example_project)).
Defined.

(** X12, on the empty document. *)
Lemma Project_requires_title_and_summary_witness :
  ∃ fields, Project_new (H:=pydantic_v2) ∅
              = inl (validation_error (H:=pydantic_v2) fields) ∧
            py "title" ∈ fields.
Proof.
  exact (proj1 (Project_requires_title_and_summary (H:=pydantic_v2) ∅) eq_refl).
Defined.

(** X13, on a one-character name. *)
Lemma Contact_errors_exact_witness :
  py "name" ∈ Contact_errors (H:=pydantic_v2) (py "A") (py "a@b.com")
                (py "Hello there, this is long enough.").
Proof.
  apply (proj2 (proj1 (Contact_errors_exact (H:=pydantic_v2) (py "A") (py "a@b.com")
                         (py "Hello there, this is long enough.")))).
  vm_compute. lia.
Defined.

(** X14, on the first scenario against a working store. *)
Lemma contact_persistence_iff_witness :
  persistence_attempted
    (POST_api_contact (H:=pydantic_v2)
       (Available (working_database ∅ (py "abc123"))) (VDict good_body)).2 = true.
Proof.
  apply (proj2 (proj1 (contact_persistence_iff (H:=pydantic_v2)
                         (Available (working_database ∅ (py "abc123")))
                         (VDict good_body)))).
  exists (working_database ∅ (py "abc123")),
    (ContactIn.mk (py "Al") (py "a@b.com") (py "Hello there, this is long enough.")).
  split; [reflexivity|]. split; [vm_compute; reflexivity|].
  repeat split; try (vm_compute; lia). eexists. vm_compute; reflexivity.
Defined.

(** X15, on the first scenario with the module missing. *)
Lemma contact_note_iff_no_id_witness :
  status (POST_api_contact (H:=pydantic_v2) absent (VDict good_body)).1 = 200.
Proof.
  exact (proj1 (contact_note_iff_no_id (H:=pydantic_v2) absent (VDict good_body)
                  (ContactIn.mk (py "Al") (py "a@b.com")
                     (py "Hello there, this is long enough."))
                  ltac:(vm_compute; reflexivity))).
Defined.

(** X16, on a body without [email]. *)
Lemma contact_missing_field_422_witness :
  ∃ fields,
    POST_api_contact (H:=pydantic_v2) absent (VDict no_email_body)
      = (unprocessable fields, []) ∧
    py "email" ∈ fields ∧
    status (unprocessable fields) = 422 ∧
    client_error (unprocessable fields) = true.
Proof.
  apply (contact_missing_field_422 (H:=pydantic_v2) absent no_email_body "email").
  - right. left.
  - vm_compute; reflexivity.
Defined.
